(** * cursed/web.go: the certificate issuance handler

    A shallow embedding of [webHandler] and [validateHTTPParams] from
    [cursed/web.go].  The handler is sequential Go code that talks to a
    handful of collaborators (the HTTP request, the clock, the ssh key
    parser and fingerprinter, the replay check, the signer, the logger and
    the response writer).  It is embedded in a small state-and-trace monad:
    every call the handler makes to one of its collaborators is recorded, in
    order, as an [Event], so that statements such as "the signer is not
    called" or "the request line is logged before validation" are statements
    about the trace of a run. *)

From Stdlib Require Import ZArith String Ascii List Bool Lia.
From stdpp Require Import base option strings gmap pretty.
Import ListNotations.

Local Open Scope string_scope.
Local Open Scope list_scope.

(** ** Data model *)

(** [time.Time] and [time.Duration], both counted in nanoseconds.  The
    saturation of [Time.Add] at the ends of the representable range is not
    modelled. *)
Definition Time := Z.
Definition Duration := Z.
Definition Add (t : Time) (d : Duration) : Time := (t + d)%Z.

(** A parsed [ssh.PublicKey], represented by its wire encoding. *)
Definition PublicKey := string.

(** The CA signing capability [conf.caSigner], an opaque handle. *)
Definition Signer := string.

(** Go's [error] values are represented by their message. *)
Definition error := string.

(** [type httpParams struct] *)
Record httpParams := {
  bastionIP : string;
  bastionUser : string;
  cmd : string;
  key : string;
  remoteUser : string;
  userIP : string
}.

(** The fields of [*config] that [web.go] reads.  The declaration of the
    struct is in another file of the package; [userRegex] stands for
    [conf.userRegex.MatchString], and [maxAge] for the replay threshold
    that [checkPubKeyAge] reads from the configuration. *)
Record config := {
  ProxyUser : string;
  ProxyPass : string;
  UserHeader : string;
  ForceCmd : bool;
  RequireClientIP : bool;
  userRegex : string -> bool;
  dur : Duration;
  exts : gmap string string;
  caSigner : Signer;
  maxAge : Duration
}.

(** [ssh.UserCert] *)
Definition UserCert : Z := 1.

(** [certConfig], the certificate descriptor handed to [signPubKey]. *)
Record certConfig := {
  certType : Z;
  command : string;
  extensions : gmap string string;
  keyID : string;
  principals : list string;
  srcAddr : string;
  validAfter : Time;
  validBefore : Time
}.

(** What the handler reads of [*http.Request]: the result of [BasicAuth]
    ([None] when it reports [ok = false]), the POST form, and the headers
    under the names [Header.Get] resolves them by. *)
Record Request := {
  basicAuth : option (string * string);
  postForm : gmap string string;
  header : gmap string string
}.

(** [net/http] status codes. *)
Definition StatusBadRequest : Z := 400.
Definition StatusUnauthorized : Z := 401.
Definition StatusUnprocessableEntity : Z := 422.
Definition StatusInternalServerError : Z := 500.

(** The two fingerprint functions of [golang.org/x/crypto/ssh]. *)
Inductive Digest := LegacyMD5 | SHA256.

(** ** Collaborators

    Functions the handler calls whose code is not in [web.go]: the ssh
    library, the time formatter, the clock, and the package's own
    [validIP], [checkPubKeyAge] and [signPubKey]. *)
Record Env := {
  (** [ssh.ParseAuthorizedKey]: [None] when [err != nil]. *)
  ParseAuthorizedKey : string -> option PublicKey;
  (** [ssh.FingerprintLegacyMD5] and [ssh.FingerprintSHA256]. *)
  Fingerprint : Digest -> PublicKey -> string;
  (** [Time.Format(time.RFC3339)]. *)
  FormatRFC3339 : Time -> string;
  (** [validIP]. *)
  validIP : string -> bool;
  (** The reading of the [n]-th clock access of the run. *)
  clock : nat -> Time;
  (** [checkPubKeyAge conf fp], at the clock reading it takes and on the
      store of first-seen times it consults: the pair [(expired, err)] and
      the new store. *)
  checkAge : config -> string -> Time -> gmap string Time ->
             (bool * option error) * gmap string Time;
  (** [signPubKey signer key cc]: the certificate or the error. *)
  sign : Signer -> string -> certConfig -> string + error
}.

(** ** Events *)

Inductive Event :=
| EBasicAuth
| EPostFormValue (name : string)
| EHeaderGet (name : string)
| ENow (t : Time)
| EParseAuthorizedKey (raw : string)
| EFingerprint (d : Digest) (pk : PublicKey)
| ELog (format : string) (args : list string)
| EValidate (p : httpParams)
| ECheckPubKeyAge (fp : string)
| ESignPubKey (signer : Signer) (raw : string) (cc : certConfig)
| EHttpError (msg : string) (code : Z)
| EWrite (body : string).

(** ** The monad: state passing plus a trace *)

Record St := {
  ticks : nat;
  db : gmap string Time
}.

Definition M (A : Type) : Type := St -> A * St * list Event.

Definition ret {A : Type} (a : A) : M A := fun s => (a, s, []).

Definition bind {A B : Type} (m : M A) (k : A -> M B) : M B :=
  fun s =>
    let '(a, s1, t1) := m s in
    let '(b, s2, t2) := k a s1 in
    (b, s2, t1 ++ t2).

Declare Scope go_scope.
Delimit Scope go_scope with go.
Notation "x <- m ;; k" := (bind m (fun x => k))
  (at level 100, m at next level, right associativity) : go_scope.
Notation "m ;; k" := (bind m (fun _ => k))
  (at level 100, right associativity) : go_scope.

Definition emit (e : Event) : M unit := fun s => (tt, s, [e]).

(** The value, the final state and the trace of a run. *)
Definition value {A : Type} (m : M A) (s : St) : A := (m s).1.1.
Definition final {A : Type} (m : M A) (s : St) : St := (m s).1.2.
Definition events {A : Type} (m : M A) (s : St) : list Event := (m s).2.

(** ** Primitive operations *)

Section Handler.

Variable env : Env.

Local Open Scope go_scope.

(** [r.BasicAuth()] *)
Definition BasicAuth (r : Request) : M (string * string * bool) :=
  emit EBasicAuth ;;
  ret (match basicAuth r with
       | Some (u, p) => (u, p, true)
       | None => ("", "", false)
       end).

(** [r.PostFormValue(name)]: the empty string when the field is absent. *)
Definition PostFormValue (r : Request) (name : string) : M string :=
  emit (EPostFormValue name) ;;
  ret (default "" (postForm r !! name)).

(** [r.Header.Get(name)] *)
Definition Header_Get (r : Request) (name : string) : M string :=
  emit (EHeaderGet name) ;;
  ret (default "" (header r !! name)).

(** [time.Now()] *)
Definition time_Now : M Time :=
  fun s =>
    let t := clock env (ticks s) in
    (t, {| ticks := S (ticks s); db := db s |}, [ENow t]).

(** [log.Printf(format, args...)] *)
Definition log_Printf (format : string) (args : list string) : M unit :=
  emit (ELog format args).

(** [http.Error(w, msg, code)] *)
Definition http_Error (msg : string) (code : Z) : M unit :=
  emit (EHttpError msg code).

(** [w.Write(body)] *)
Definition w_Write (body : string) : M unit :=
  emit (EWrite body).

(** [ssh.ParseAuthorizedKey([]byte(raw))] *)
Definition ssh_ParseAuthorizedKey (raw : string) : M (option PublicKey) :=
  emit (EParseAuthorizedKey raw) ;;
  ret (ParseAuthorizedKey env raw).

(** [ssh.FingerprintLegacyMD5(pk)] *)
Definition ssh_FingerprintLegacyMD5 (pk : PublicKey) : M string :=
  emit (EFingerprint LegacyMD5 pk) ;;
  ret (Fingerprint env LegacyMD5 pk).

(** [checkPubKeyAge(conf, fp)] *)
Definition checkPubKeyAge (conf : config) (fp : string) : M (bool * option error) :=
  fun s =>
    let t := clock env (ticks s) in
    let '(res, db') := checkAge env conf fp t (db s) in
    (res, {| ticks := S (ticks s); db := db' |}, [ECheckPubKeyAge fp]).

(** [signPubKey(signer, []byte(raw), cc)] *)
Definition signPubKey (signer : Signer) (raw : string) (cc : certConfig)
  : M (string + error) :=
  emit (ESignPubKey signer raw cc) ;;
  ret (sign env signer raw cc).

(** ** [validateHTTPParams] *)

Definition validateHTTPParams (p : httpParams) (conf : config) : M (option error) :=
  emit (EValidate p) ;;
  if ForceCmd conf && String.eqb (cmd p) "" then
    ret (Some "cmd missing from request")
  else if String.eqb (bastionIP p) "" || negb (validIP env (bastionIP p)) then
    ret (Some "bastionIP is invalid")
  else if String.eqb (bastionUser p) "" then
    ret (Some (UserHeader conf +:+ " missing from request"))
  else if Nat.ltb 32 (String.length (bastionUser p))
          || negb (userRegex conf (bastionUser p)) then
    ret (Some "username is invalid")
  else if String.eqb (key p) "" then
    ret (Some "key missing from request")
  else if String.eqb (remoteUser p) "" then
    ret (Some "remoteUser missing from request")
  else if RequireClientIP conf && negb (validIP env (userIP p)) then
    log_Printf "invalid userIP: |%s|" [userIP p] ;;
    ret (Some "invalid userIP")
  else
    ret None.

(** ** [webHandler] *)

(** The key-id format of line 60, with its five [%s] verbs filled in. *)
Definition keyID_string (user from command fp validTo : string) : string :=
  "user[" +:+ user +:+ "] from[" +:+ from +:+ "] command[" +:+ command
  +:+ "] sshKey[" +:+ fp +:+ "] valid to[" +:+ validTo +:+ "]".

Definition webHandler (r : Request) (conf : config) : M unit :=
  auth <- BasicAuth r ;;
  let '(user, pass, ok) := auth in
  if negb ok then
    http_Error "Authorization Failure" StatusUnauthorized
  else if negb (String.eqb user (ProxyUser conf))
          || negb (String.eqb pass (ProxyPass conf)) then
    log_Printf "Invalid proxy credentials" [] ;;
    http_Error "Unauthorized" StatusUnauthorized
  else
    f_bastionIP <- PostFormValue r "bastionIP" ;;
    f_bastionUser <- Header_Get r (UserHeader conf) ;;
    f_cmd <- PostFormValue r "cmd" ;;
    f_key <- PostFormValue r "key" ;;
    f_remoteUser <- PostFormValue r "remoteUser" ;;
    f_userIP <- PostFormValue r "userIP" ;;
    let p := {| bastionIP := f_bastionIP; bastionUser := f_bastionUser;
                cmd := f_cmd; key := f_key; remoteUser := f_remoteUser;
                userIP := f_userIP |} in
    va <- time_Now ;;
    now2 <- time_Now ;;
    let vb := Add now2 (dur conf) in
    parsed <- ssh_ParseAuthorizedKey (key p) ;;
    match parsed with
    | None =>
        log_Printf "Unable to parse authorized key |%s|" [key p] ;;
        http_Error "Unable to parse authorized key" StatusBadRequest
    | Some pk =>
        fp <- ssh_FingerprintLegacyMD5 pk ;;
        let keyID := keyID_string (bastionUser p) (userIP p) (cmd p) fp
                                  (FormatRFC3339 env vb) in
        log_Printf "Request: |%s|" [keyID] ;;
        verr <- validateHTTPParams p conf ;;
        match verr with
        | Some err =>
            let errMsg := "Param validation failure: " +:+ err in
            log_Printf errMsg [] ;;
            http_Error errMsg StatusBadRequest
        | None =>
            aged <- checkPubKeyAge conf fp ;;
            let '(expired, _) := aged in
            if expired then
              http_Error "Submitted pubkey is too old. Please generate new key."
                         StatusUnprocessableEntity
            else
              let cc := {| certType := UserCert;
                           command := cmd p;
                           extensions := exts conf;
                           keyID := keyID;
                           principals := [remoteUser p];
                           srcAddr := bastionIP p;
                           validAfter := va;
                           validBefore := vb |} in
              signed <- signPubKey (caSigner conf) (key p) cc ;;
              match signed with
              | inr err =>
                  log_Printf "%v" [err] ;;
                  http_Error "Server error" StatusInternalServerError
              | inl authorizedKey =>
                  w_Write authorizedKey
              end
        end
    end.

End Handler.

(** ** Reading a trace *)

(** What the caller receives: the [http.Error] or the body written. *)
Inductive Response :=
| RError (msg : string) (code : Z)
| RBody (body : string).

Fixpoint response (tr : list Event) : option Response :=
  match tr with
  | [] => None
  | EHttpError msg code :: _ => Some (RError msg code)
  | EWrite body :: _ => Some (RBody body)
  | _ :: tr' => response tr'
  end.

Definition is_parse (e : Event) : bool :=
  match e with EParseAuthorizedKey _ => true | _ => false end.
Definition is_fingerprint (e : Event) : bool :=
  match e with EFingerprint _ _ => true | _ => false end.
Definition is_sign (e : Event) : bool :=
  match e with ESignPubKey _ _ _ => true | _ => false end.
Definition is_log (e : Event) : bool :=
  match e with ELog _ _ => true | _ => false end.
Definition is_response (e : Event) : bool :=
  match e with EHttpError _ _ | EWrite _ => true | _ => false end.
Definition is_write (e : Event) : bool :=
  match e with EWrite _ => true | _ => false end.

(** Some event of the trace satisfies [P]. *)
Definition called (P : Event -> bool) (tr : list Event) : bool :=
  List.existsb P tr.

(** How many events of the trace satisfy [P]. *)
Definition count (P : Event -> bool) (tr : list Event) : nat :=
  List.length (List.filter P tr).

(** Some event satisfying [P] comes strictly before one satisfying [Q]. *)
Fixpoint precedes (P Q : Event -> bool) (tr : list Event) : bool :=
  match tr with
  | [] => false
  | e :: tr' => (P e && called Q tr') || precedes P Q tr'
  end.

(** ** The request as the handler sees it *)

(** The struct of line 35, as a function of the request. *)
Definition loadParams (r : Request) (conf : config) : httpParams :=
  {| bastionIP := default "" (postForm r !! "bastionIP");
     bastionUser := default "" (header r !! UserHeader conf);
     cmd := default "" (postForm r !! "cmd");
     key := default "" (postForm r !! "key");
     remoteUser := default "" (postForm r !! "remoteUser");
     userIP := default "" (postForm r !! "userIP") |}.

(** The basic-auth credentials are present and are exactly the configured
    proxy user and password. *)
Definition credentials_ok (r : Request) (conf : config) : Prop :=
  basicAuth r = Some (ProxyUser conf, ProxyPass conf).

(** The trace of one run of the handler. *)
Definition run (env : Env) (r : Request) (conf : config) (s : St) : list Event :=
  events (webHandler env r conf) s.

(** ** The replay check *)

(** Modelled from the spec: [checkPubKeyAge] is defined in a file of the
    package that is not part of [web.go]; only its call (line 76) is.  The
    spec's Replay Guard keeps a map from fingerprint to first-seen time.  On
    the first observation of a fingerprint it records the current time and
    answers Fresh; on a later one it computes [age = now - first_seen] and
    answers Expired when [age > maxAge], and Aged(age) otherwise. *)
Inductive Decision :=
| Fresh
| Aged (age : Duration)
| Expired.

Definition observe (threshold : Duration) (fp : string) (now : Time)
    (seen : gmap string Time) : Decision * gmap string Time :=
  match seen !! fp with
  | None => (Fresh, <[fp := now]> seen)
  | Some first_seen =>
      let age := (now - first_seen)%Z in
      if (threshold <? age)%Z then (Expired, seen) else (Aged age, seen)
  end.

(** Modelled from the spec: the [(expired, err)] pair of [checkPubKeyAge],
    read off the Replay Guard's decision; the spec gives the guard no
    failure of its own. *)
Definition observeAge (conf : config) (fp : string) (now : Time)
    (seen : gmap string Time) : (bool * option error) * gmap string Time :=
  let '(d, seen') := observe (maxAge conf) fp now seen in
  ((match d with Expired => true | _ => false end, None), seen').

(** ** A deterministic test double for the collaborators *)

Module Fake.

Definition is_digit (c : ascii) : bool :=
  let n := nat_of_ascii c in Nat.leb 48 n && Nat.leb n 57.

(** The decimal fields of a dotted address. *)
Fixpoint fields (s : string) (cur : option nat) (acc : list nat) : option (list nat) :=
  match s with
  | EmptyString =>
      match cur with Some n => Some (acc ++ [n]) | None => None end
  | String c s' =>
      if Ascii.eqb c "." then
        match cur with Some n => fields s' None (acc ++ [n]) | None => None end
      else if is_digit c then
        fields s' (Some (10 * default 0 cur + (nat_of_ascii c - 48))%nat) acc
      else None
  end.

(** Dotted-quad IPv4 addresses only. *)
Definition dotted_quad (s : string) : bool :=
  match fields s None [] with
  | Some l => Nat.eqb (List.length l) 4 && List.forallb (fun n => Nat.leb n 255) l
  | None => false
  end.

(** Keys of the form ["ssh-ed25519 <blob>"] parse, nothing else does. *)
Definition parse (raw : string) : option PublicKey :=
  if String.prefix "ssh-ed25519 " raw
  then Some (String.substring 12 (String.length raw - 12) raw)
  else None.

Definition fingerprint (d : Digest) (pk : PublicKey) : string :=
  match d with
  | LegacyMD5 => "MD5:" +:+ pk
  | SHA256 => "SHA256:" +:+ pk
  end.

Definition format (t : Time) : string := pretty t.

Definition signer (s : Signer) (raw : string) (cc : certConfig) : string + error :=
  if String.eqb s "" then inr "no signing key"
  else inl ("cert{" +:+ keyID cc +:+ "}").

Definition lower (c : ascii) : bool :=
  let n := nat_of_ascii c in Nat.leb 97 n && Nat.leb n 122.

Fixpoint all_lower (s : string) : bool :=
  match s with
  | EmptyString => true
  | String c s' => lower c && all_lower s'
  end.

(** The clock reads [t0] at every access. *)
Definition env (t0 : Time) : Env :=
  {| ParseAuthorizedKey := parse;
     Fingerprint := fingerprint;
     FormatRFC3339 := format;
     validIP := dotted_quad;
     clock := fun _ => t0;
     checkAge := observeAge;
     sign := signer |}.

(** A configuration, by forced-command policy, client-IP policy,
    certificate lifetime and signing capability. *)
Definition policy (force requireIP : bool) (lifetime : Duration) (ca : Signer)
  : config :=
  {| ProxyUser := "proxy";
     ProxyPass := "hunter2";
     UserHeader := "X-User";
     ForceCmd := force;
     RequireClientIP := requireIP;
     userRegex := all_lower;
     dur := lifetime;
     exts := {[ "permit-pty" := "" ]};
     caSigner := ca;
     maxAge := 1000%Z |}.

Arguments policy force requireIP lifetime%_Z ca.

Definition conf : config := policy false false 120 "ca".

Definition form (p : httpParams) : gmap string string :=
  {[ "bastionIP" := bastionIP p; "cmd" := cmd p; "key" := key p;
     "remoteUser" := remoteUser p; "userIP" := userIP p ]}.

(** A request carrying the configured proxy credentials and the fields
    of [p]. *)
Definition request (p : httpParams) : Request :=
  {| basicAuth := Some ("proxy", "hunter2");
     postForm := form p;
     header := {[ "X-User" := bastionUser p ]} |}.

(** The request of the spec's examples. *)
Definition deploy : httpParams :=
  {| bastionIP := "10.0.0.5"; bastionUser := "alice"; cmd := "";
     key := "ssh-ed25519 AAAAC3Nz"; remoteUser := "deploy";
     userIP := "203.0.113.9" |}.

(** The same request without credentials. *)
Definition anonymous (p : httpParams) : Request :=
  {| basicAuth := None;
     postForm := form p;
     header := {[ "X-User" := bastionUser p ]} |}.

(** A clock that reads 5000 throughout. *)
Definition world : Env := env 5000%Z.

(** The example request without its remote principal, and without its
    key. *)
Definition no_principal : httpParams :=
  {| bastionIP := "10.0.0.5"; bastionUser := "alice"; cmd := "";
     key := "ssh-ed25519 AAAAC3Nz"; remoteUser := "";
     userIP := "203.0.113.9" |}.

Definition no_key : httpParams :=
  {| bastionIP := "10.0.0.5"; bastionUser := "alice"; cmd := "";
     key := ""; remoteUser := "deploy";
     userIP := "203.0.113.9" |}.

(** The example request without its client address. *)
Definition no_client : httpParams :=
  {| bastionIP := "10.0.0.5"; bastionUser := "alice"; cmd := "";
     key := "ssh-ed25519 AAAAC3Nz"; remoteUser := "deploy";
     userIP := "" |}.

(** The descriptor of the spec's example request. *)
Definition deploy_cc : certConfig :=
  {| certType := UserCert;
     command := "";
     extensions := {[ "permit-pty" := "" ]};
     keyID := "user[alice] from[203.0.113.9] command[] sshKey[MD5:AAAAC3Nz] valid to[5120]";
     principals := ["deploy"];
     srcAddr := "10.0.0.5";
     validAfter := 5000%Z;
     validBefore := 5120%Z |}.

(** The same collaborators, with a replay check that does not expire the
    key and reports an error of its store. *)
Definition flaky : Env :=
  {| ParseAuthorizedKey := parse;
     Fingerprint := fingerprint;
     FormatRFC3339 := format;
     validIP := dotted_quad;
     clock := fun _ => 5000%Z;
     checkAge := fun _ _ _ seen => ((false, Some "database not open"), seen);
     sign := signer |}.

(** No clock access yet, nothing seen yet. *)
Definition st0 : St := {| ticks := 0; db := ∅ |}.

(** No clock access yet, and the key of the example first seen at [t]. *)
Definition seen_at (t : Time) : St :=
  {| ticks := 0; db := {[ "MD5:AAAAC3Nz" := t ]} |}.

Arguments seen_at t%_Z.

(** The example request with a bastion address that is no address, with a
    key that is no key, and with a user name of 33 letters. *)
Definition bad_bastion : httpParams :=
  {| bastionIP := "10.0.0"; bastionUser := "alice"; cmd := "";
     key := "ssh-ed25519 AAAAC3Nz"; remoteUser := "deploy";
     userIP := "203.0.113.9" |}.

Definition bad_key : httpParams :=
  {| bastionIP := "10.0.0.5"; bastionUser := "alice"; cmd := "";
     key := "not a key"; remoteUser := "deploy";
     userIP := "203.0.113.9" |}.

Definition long_user : httpParams :=
  {| bastionIP := "10.0.0.5";
     bastionUser := "abcdefghijklmnopqrstuvwxyzabcdefg"; cmd := "";
     key := "ssh-ed25519 AAAAC3Nz"; remoteUser := "deploy";
     userIP := "203.0.113.9" |}.

(** The request of [p] with the right proxy user and a wrong password. *)
Definition wrong_password (p : httpParams) : Request :=
  {| basicAuth := Some ("proxy", "letmein");
     postForm := form p;
     header := {[ "X-User" := bastionUser p ]} |}.

(** The request of [p] with a form field and a header the handler does not
    read. *)
Definition noisy (p : httpParams) : Request :=
  {| basicAuth := Some ("proxy", "hunter2");
     postForm := <[ "bastionUser" := "root" ]> (form p);
     header := <[ "X-Forwarded-For" := "198.51.100.7" ]>
                 {[ "X-User" := bastionUser p ]} |}.

End Fake.

(** ** The Request Validator in the spec's words *)

Definition present (s : string) : bool := negb (String.eqb s "").

(** The policy checks (a) to (f), in order: whether the check passes, and
    the reason reported when it does not.  Check (c) has two reasons, one
    for an absent user and one for a user that is too long or does not
    match the pattern. *)
Definition policy_checks (env : Env) (p : httpParams) (conf : config)
  : list (bool * error) :=
  [ (implb (ForceCmd conf) (present (cmd p)), "cmd missing from request");
    (present (bastionIP p) && validIP env (bastionIP p), "bastionIP is invalid");
    (present (bastionUser p), UserHeader conf +:+ " missing from request");
    (Nat.leb (String.length (bastionUser p)) 32 && userRegex conf (bastionUser p),
     "username is invalid");
    (present (key p), "key missing from request");
    (present (remoteUser p), "remoteUser missing from request");
    (implb (RequireClientIP conf) (validIP env (userIP p)), "invalid userIP") ].

(** The reason of the first check that does not pass. *)
Fixpoint first_failure (checks : list (bool * error)) : option error :=
  match checks with
  | [] => None
  | (true, _) :: rest => first_failure rest
  | (false, reason) :: _ => Some reason
  end.

(** The trace of a call of the validator (it does not depend on the state
    the call starts in, see [validate_run]). *)
Definition validate_events (env : Env) (p : httpParams) (conf : config)
  : list Event :=
  events (validateHTTPParams env p conf) {| ticks := 0; db := ∅ |}.

(** ** The ways a run of [webHandler] can end *)

Section Run.

Variable env : Env.
Variable r : Request.
Variable conf : config.
Variable s : St.

(** The clock readings of the run: [va], the reading [vb] is computed
    from, and the reading the replay check takes. *)
Definition t_va : Time := clock env (ticks s).
Definition t_vb : Time := clock env (S (ticks s)).
Definition t_check : Time := clock env (S (S (ticks s))).

(** The trace up to and including the call of the key parser. *)
Definition upto_parse : list Event :=
  let p := loadParams r conf in
  [ EBasicAuth;
    EPostFormValue "bastionIP"; EHeaderGet (UserHeader conf);
    EPostFormValue "cmd"; EPostFormValue "key";
    EPostFormValue "remoteUser"; EPostFormValue "userIP";
    ENow t_va; ENow t_vb;
    EParseAuthorizedKey (key p) ].

(** The key-id the handler formats for a key that parsed as [pk]. *)
Definition run_keyID (pk : PublicKey) : string :=
  let p := loadParams r conf in
  keyID_string (bastionUser p) (userIP p) (cmd p)
               (Fingerprint env LegacyMD5 pk)
               (FormatRFC3339 env (Add t_vb (dur conf))).

(** The descriptor the handler hands to the signer. *)
Definition run_cc (pk : PublicKey) : certConfig :=
  let p := loadParams r conf in
  {| certType := UserCert;
     command := cmd p;
     extensions := exts conf;
     keyID := run_keyID pk;
     principals := [remoteUser p];
     srcAddr := bastionIP p;
     validAfter := t_va;
     validBefore := Add t_vb (dur conf) |}.

(** The trace from the fingerprint up to and including the validator. *)
Definition upto_validate (pk : PublicKey) : list Event :=
  upto_parse
  ++ [ EFingerprint LegacyMD5 pk; ELog "Request: |%s|" [run_keyID pk] ]
  ++ validate_events env (loadParams r conf) conf.

(** The trace of a request that passes the validator, up to and including
    the replay check. *)
Definition upto_check (pk : PublicKey) : list Event :=
  upto_parse
  ++ [ EFingerprint LegacyMD5 pk; ELog "Request: |%s|" [run_keyID pk];
       EValidate (loadParams r conf);
       ECheckPubKeyAge (Fingerprint env LegacyMD5 pk) ].

(** The seven ways a run can end, each with the conditions under which the
    code takes that path, the state it leaves and the trace it produces. *)
Inductive Outcome : St -> list Event -> Prop :=
| AuthAbsent :
    basicAuth r = None ->
    Outcome s [EBasicAuth; EHttpError "Authorization Failure" StatusUnauthorized]
| AuthMismatch user pass :
    basicAuth r = Some (user, pass) ->
    user <> ProxyUser conf \/ pass <> ProxyPass conf ->
    Outcome s [EBasicAuth; ELog "Invalid proxy credentials" [];
               EHttpError "Unauthorized" StatusUnauthorized]
| ParseFailed :
    credentials_ok r conf ->
    ParseAuthorizedKey env (key (loadParams r conf)) = None ->
    Outcome {| ticks := S (S (ticks s)); db := db s |}
      (upto_parse
       ++ [ELog "Unable to parse authorized key |%s|" [key (loadParams r conf)];
           EHttpError "Unable to parse authorized key" StatusBadRequest])
| Invalid pk reason :
    credentials_ok r conf ->
    ParseAuthorizedKey env (key (loadParams r conf)) = Some pk ->
    first_failure (policy_checks env (loadParams r conf) conf) = Some reason ->
    Outcome {| ticks := S (S (ticks s)); db := db s |}
      (upto_validate pk
       ++ [ELog ("Param validation failure: " +:+ reason) [];
           EHttpError ("Param validation failure: " +:+ reason) StatusBadRequest])
| TooOld pk err db' :
    credentials_ok r conf ->
    ParseAuthorizedKey env (key (loadParams r conf)) = Some pk ->
    first_failure (policy_checks env (loadParams r conf) conf) = None ->
    checkAge env conf (Fingerprint env LegacyMD5 pk) t_check (db s)
      = ((true, err), db') ->
    Outcome {| ticks := S (S (S (ticks s))); db := db' |}
      (upto_check pk
       ++ [EHttpError "Submitted pubkey is too old. Please generate new key."
                      StatusUnprocessableEntity])
| SignFailed pk err db' serr :
    credentials_ok r conf ->
    ParseAuthorizedKey env (key (loadParams r conf)) = Some pk ->
    first_failure (policy_checks env (loadParams r conf) conf) = None ->
    checkAge env conf (Fingerprint env LegacyMD5 pk) t_check (db s)
      = ((false, err), db') ->
    sign env (caSigner conf) (key (loadParams r conf)) (run_cc pk) = inr serr ->
    Outcome {| ticks := S (S (S (ticks s))); db := db' |}
      (upto_check pk
       ++ [ESignPubKey (caSigner conf) (key (loadParams r conf)) (run_cc pk);
           ELog "%v" [serr];
           EHttpError "Server error" StatusInternalServerError])
| Issued pk err db' cert :
    credentials_ok r conf ->
    ParseAuthorizedKey env (key (loadParams r conf)) = Some pk ->
    first_failure (policy_checks env (loadParams r conf) conf) = None ->
    checkAge env conf (Fingerprint env LegacyMD5 pk) t_check (db s)
      = ((false, err), db') ->
    sign env (caSigner conf) (key (loadParams r conf)) (run_cc pk) = inl cert ->
    Outcome {| ticks := S (S (S (ticks s))); db := db' |}
      (upto_check pk
       ++ [ESignPubKey (caSigner conf) (key (loadParams r conf)) (run_cc pk);
           EWrite cert]).

End Run.

(** ** Predicates the statements use *)

(** The stages that follow the credential check. *)
Definition later_stage (e : Event) : bool :=
  match e with
  | EPostFormValue _ | EHeaderGet _ | ENow _
  | EParseAuthorizedKey _ | EFingerprint _ _
  | EValidate _ | ECheckPubKeyAge _ | ESignPubKey _ _ _ | EWrite _ => true
  | EBasicAuth | ELog _ _ | EHttpError _ _ => false
  end.

(** A mandatory field of the request is missing: the command under the
    forced-command policy, the bastion address, the bastion user, the key,
    the remote principal, or the client address when it is required. *)
Definition missing_mandatory (conf : config) (p : httpParams) : bool :=
  (ForceCmd conf && String.eqb (cmd p) "")
  || String.eqb (bastionIP p) ""
  || String.eqb (bastionUser p) ""
  || String.eqb (key p) ""
  || String.eqb (remoteUser p) ""
  || (RequireClientIP conf && String.eqb (userIP p) "").

(** The digests that are not the legacy one. *)
Definition modern (d : Digest) : bool :=
  match d with
  | SHA256 => true
  | LegacyMD5 => false
  end.

(** The request line of line 64, the one log line that carries the
    key-id. *)
Definition is_audit (e : Event) : bool :=
  match e with
  | ELog format _ => String.eqb format "Request: |%s|"
  | _ => false
  end.

(** The log lines other than the request line. *)
Definition is_failure_log (e : Event) : bool :=
  is_log e && negb (is_audit e).

(** The stages that follow the request line in the code: the validator,
    the replay check, the signer and the response. *)
Definition after_logging (e : Event) : bool :=
  match e with
  | EValidate _ | ECheckPubKeyAge _ | ESignPubKey _ _ _
  | EHttpError _ _ | EWrite _ => true
  | _ => false
  end.

(** The validator call and the replay check. *)
Definition is_validate (e : Event) : bool :=
  match e with EValidate _ => true | _ => false end.
Definition is_check (e : Event) : bool :=
  match e with ECheckPubKeyAge _ => true | _ => false end.

(** The last event of the trace is the response. *)
Definition ends_with_response (tr : list Event) : bool :=
  match last tr with
  | Some e => is_response e
  | None => false
  end.

(** The place of a call in the pipeline of [webHandler]: the credential
    check, the request fields, the clock, the key parser, the
    fingerprinter, the validator, the replay check, the signer, the
    response.  Log lines have no place of their own. *)
Definition stage (e : Event) : option nat :=
  match e with
  | EBasicAuth => Some 0
  | EPostFormValue _ | EHeaderGet _ => Some 1
  | ENow _ => Some 2
  | EParseAuthorizedKey _ => Some 3
  | EFingerprint _ _ => Some 4
  | EValidate _ => Some 5
  | ECheckPubKeyAge _ => Some 6
  | ESignPubKey _ _ _ => Some 7
  | EHttpError _ _ | EWrite _ => Some 8
  | ELog _ _ => None
  end%nat.

(** The stages of the calls of a trace, in order. *)
Fixpoint stages (tr : list Event) : list nat :=
  match tr with
  | [] => []
  | e :: tr' =>
      match stage e with
      | Some n => n :: stages tr'
      | None => stages tr'
      end
  end.

(** A list of stages never steps back. *)
Fixpoint forward (l : list nat) : bool :=
  match l with
  | [] => true
  | n :: l' =>
      match l' with
      | [] => true
      | m :: _ => Nat.leb n m && forward l'
      end
  end.

(** The request [p] with another command, and with another client
    address. *)
Definition with_cmd (c : string) (p : httpParams) : httpParams :=
  {| bastionIP := bastionIP p; bastionUser := bastionUser p; cmd := c;
     key := key p; remoteUser := remoteUser p; userIP := userIP p |}.

Definition with_userIP (u : string) (p : httpParams) : httpParams :=
  {| bastionIP := bastionIP p; bastionUser := bastionUser p; cmd := cmd p;
     key := key p; remoteUser := remoteUser p; userIP := u |}.

(** * Proofs *)

(** No check fails exactly when every check passes. *)
Lemma first_failure_none (checks : list (bool * error)) :
  first_failure checks = None <-> List.forallb fst checks = true.
Proof.
  induction checks as [|[[] reason] rest IH]; cbn.
  - split; reflexivity.
  - exact IH.
  - split; discriminate.
Qed.

(** ** Facts about [validateHTTPParams] *)

(** Case analysis on the conditions of [validateHTTPParams], in the order
    the code evaluates them; [tac] settles a branch as soon as the
    conditions met so far decide it. *)
Ltac validator_cases env p conf tac :=
  rewrite ?Nat.leb_antisym;
  destruct (ForceCmd conf), (String.eqb (cmd p) ""); try solve [tac];
  destruct (String.eqb (bastionIP p) ""), (validIP env (bastionIP p));
    try solve [tac];
  destruct (String.eqb (bastionUser p) ""); try solve [tac];
  destruct (Nat.ltb 32 (String.length (bastionUser p))),
           (userRegex conf (bastionUser p)); try solve [tac];
  destruct (String.eqb (key p) ""); try solve [tac];
  destruct (String.eqb (remoteUser p) ""); try solve [tac];
  destruct (RequireClientIP conf), (validIP env (userIP p)); try solve [tac].

Section Validator.

Variable env : Env.

(** The validator reads no clock and touches no store; it returns the
    reason of the first policy check that fails. *)
Lemma validate_run (p : httpParams) (conf : config) (s : St) :
  validateHTTPParams env p conf s =
  (first_failure (policy_checks env p conf), s, validate_events env p conf).
Proof.
  unfold validate_events, events, validateHTTPParams, policy_checks, present,
    bind, emit, ret, log_Printf.
  validator_cases env p conf ltac:(reflexivity).
Qed.

(** Its trace is the call itself, followed by the log line of check (f)
    when that is the check that fails. *)
Lemma validate_events_shape (p : httpParams) (conf : config) :
  validate_events env p conf = [EValidate p] \/
  (first_failure (policy_checks env p conf) = Some "invalid userIP" /\
   validate_events env p conf = [EValidate p; ELog "invalid userIP: |%s|" [userIP p]]).
Proof.
  unfold validate_events, events, validateHTTPParams, policy_checks, present,
    bind, emit, ret, log_Printf.
  validator_cases env p conf
    ltac:(first [ left; reflexivity | right; split; reflexivity ]).
Qed.

Lemma validate_events_pass (p : httpParams) (conf : config) :
  first_failure (policy_checks env p conf) = None ->
  validate_events env p conf = [EValidate p].
Proof.
  intros Hnone. destruct (validate_events_shape p conf) as [H | [H _]].
  - exact H.
  - congruence.
Qed.

End Validator.

(** ** Symbolic execution of [webHandler] *)

Section RunFacts.

Variable env : Env.
Variable r : Request.
Variable conf : config.
Variable s : St.

Local Arguments validateHTTPParams : simpl never.
Local Arguments String.append : simpl never.
Local Arguments String.eqb : simpl never.

(** Every run ends in one of these ways. *)
Lemma run_outcome :
  Outcome env r conf s (final (webHandler env r conf) s) (run env r conf s).
Proof.
  unfold run, final, events, webHandler.
  unfold bind at 1. unfold BasicAuth, bind, emit, ret at 1.
  destruct (basicAuth r) as [[user pass]|] eqn:Hauth; cbn.
  2: { apply AuthAbsent. exact Hauth. }
  destruct (String.eqb user (ProxyUser conf)) eqn:Hu;
    [ destruct (String.eqb pass (ProxyPass conf)) eqn:Hp | ]; cbn.
  2: { eapply AuthMismatch; [exact Hauth | right].
       apply String.eqb_neq. exact Hp. }
  2: { eapply AuthMismatch; [exact Hauth | left].
       apply String.eqb_neq. exact Hu. }
  apply String.eqb_eq in Hu, Hp. subst user pass.
  assert (Hok : credentials_ok r conf) by exact Hauth.
  destruct (ParseAuthorizedKey env (default "" (postForm r !! "key")))
    as [pk|] eqn:Hparse; cbn.
  2: { apply ParseFailed; assumption. }
  rewrite validate_run. fold (loadParams r conf).
  destruct (first_failure (policy_checks env (loadParams r conf) conf))
    as [reason|] eqn:Hv; cbn.
  { apply (Invalid env r conf s pk reason); assumption. }
  rewrite (validate_events_pass env _ _ Hv).
  unfold checkPubKeyAge; cbn.
  destruct (checkAge env conf (Fingerprint env LegacyMD5 pk)
              (clock env (S (S (ticks s)))) (db s))
    as [[expired err] db'] eqn:Hcheck; cbn.
  destruct expired; cbn.
  { apply (TooOld env r conf s pk err db'); assumption. }
  match goal with
  | |- context [sign env ?sg ?k ?cc] =>
      destruct (sign env sg k cc) as [cert|serr] eqn:Hsign
  end; cbn.
  - apply (Issued env r conf s pk err db' cert); assumption.
  - apply (SignFailed env r conf s pk err db' serr); assumption.
Qed.

End RunFacts.

(** ** Reading the trace of a run *)

(** Unfold the trace of the outcome at hand down to its events. *)
Ltac show_trace :=
  unfold upto_check, upto_validate, upto_parse in *; cbn [app] in *.

(** Case analysis on the way the run [run env r conf s] ends; in the case
    of a validation failure the trace of the validator is made explicit. *)
Ltac run_cases env r conf s :=
  let Hshape := fresh "Hshape" in
  destruct (run_outcome env r conf s)
    as [ Hauth | user pass Hauth Hbad | Hok Hparse | pk reason Hok Hparse Hv
       | pk err db' Hok Hparse Hv Hcheck
       | pk err db' serr Hok Hparse Hv Hcheck Hsign
       | pk err db' cert Hok Hparse Hv Hcheck Hsign ];
  [ | | |
    destruct (validate_events_shape env (loadParams r conf) conf)
      as [Hshape | [_ Hshape]];
    unfold upto_validate; rewrite Hshape; clear Hshape
  | | | ];
  show_trace.

Lemma absent_not_ok (r : Request) (conf : config) :
  basicAuth r = None -> ~ credentials_ok r conf.
Proof. unfold credentials_ok. congruence. Qed.

Lemma mismatch_not_ok (r : Request) (conf : config) (user pass : string) :
  basicAuth r = Some (user, pass) ->
  user <> ProxyUser conf \/ pass <> ProxyPass conf ->
  ~ credentials_ok r conf.
Proof. unfold credentials_ok. intros Hauth [Hne | Hne] Hok; congruence. Qed.

(** Close a case whose hypotheses contradict one another: credentials
    both accepted and refused, a key both parsed and not, a request both
    valid and invalid. *)
Ltac absurd_case :=
  exfalso;
  match goal with
  | Hno : basicAuth ?r = None, Hok : credentials_ok ?r ?conf |- _ =>
      exact (absent_not_ok r conf Hno Hok)
  | Hauth : basicAuth ?r = Some (?u, ?pw), Hbad : _ \/ _,
    Hok : credentials_ok ?r ?conf |- _ =>
      exact (mismatch_not_ok r conf u pw Hauth Hbad Hok)
  | _ => congruence
  end.

(** A signer call in the trace of a run is the one of line 95: the request
    was authenticated, its key parsed, it passed the validator, and the
    descriptor is the one built at lines 83 to 92. *)
Lemma sign_event_inv env r conf s signer raw cc :
  In (ESignPubKey signer raw cc) (run env r conf s) ->
  exists pk,
    credentials_ok r conf /\
    ParseAuthorizedKey env (key (loadParams r conf)) = Some pk /\
    first_failure (policy_checks env (loadParams r conf) conf) = None /\
    signer = caSigner conf /\
    raw = key (loadParams r conf) /\
    cc = run_cc env r conf s pk.
Proof.
  run_cases env r conf s; cbn [In]; intros Hin;
    repeat (destruct Hin as [Hin | Hin]; try discriminate Hin);
    try contradiction;
    injection Hin as <- <- <-; exists pk; auto 10.
Qed.

(** The request line of line 64 is in the trace of every authenticated run
    whose key parsed, with the key-id of line 60. *)
Lemma request_line_logged env r conf s k :
  credentials_ok r conf ->
  ParseAuthorizedKey env (key (loadParams r conf)) = Some k ->
  In (ELog "Request: |%s|" [run_keyID env r conf s k]) (run env r conf s).
Proof.
  run_cases env r conf s; intros Hok0 Hparse0; cbn [In];
    try solve [absurd_case];
    assert (k = pk) as -> by congruence; auto 20.
Qed.

(** ** Authentication at the edge (C10) *)

(** C10. A request whose basic-auth credentials are absent, or are not
    exactly the configured proxy user and password, is answered with status
    401 Unauthorized, and none of the later stages is performed: no form or
    header field is read, no key is parsed or fingerprinted, the validator,
    the replay check and the signer are not called, nothing is written, and
    the clock and the replay store are left untouched. *)
Theorem C10_bad_credentials_stop_at_auth env r conf s :
  ~ credentials_ok r conf ->
  (exists msg, response (run env r conf s) = Some (RError msg StatusUnauthorized))
  /\ called later_stage (run env r conf s) = false
  /\ final (webHandler env r conf) s = s.
Proof.
  intros Hbad'.
  destruct (run_outcome env r conf s); try contradiction;
    (split; [ eexists; reflexivity | split; reflexivity ]).
Qed.

(** The spec's example request, sent without credentials. *)
Lemma C10_bad_credentials_witness :
  (exists msg,
     response (run Fake.world (Fake.anonymous Fake.deploy) Fake.conf Fake.st0)
     = Some (RError msg StatusUnauthorized))
  /\ called later_stage
       (run Fake.world (Fake.anonymous Fake.deploy) Fake.conf Fake.st0) = false
  /\ final (webHandler Fake.world (Fake.anonymous Fake.deploy) Fake.conf) Fake.st0
     = Fake.st0.
Proof.
  apply (C10_bad_credentials_stop_at_auth
           Fake.world (Fake.anonymous Fake.deploy) Fake.conf Fake.st0).
  unfold credentials_ok. simpl. discriminate.
Defined.

(** A concrete event is in a concrete trace: it is the [n]-th one. *)
Ltac event_at n :=
  apply (List.nth_error_In _ n); vm_compute; reflexivity.

(** ** The Request Validator (C6) *)

(** C6. [validateHTTPParams] returns the reason of the first policy check
    that fails, the checks being taken in the order (a) forced command,
    (b) bastion address, (c) bastion user, (d) key, (e) remote principal,
    (f) client address; it returns no error exactly when every check
    passes; with the forced-command policy on and an empty command the
    reason is "cmd missing from request".  The validator receives the
    request by value and returns nothing but the error: the request, the
    clock and the replay store are as they were.  The length bound of
    check (c) is Go's [len], the length of the string in bytes. *)
Theorem C6_validateHTTPParams_first_failing_check env p conf s :
  value (validateHTTPParams env p conf) s
    = first_failure (policy_checks env p conf)
  /\ (value (validateHTTPParams env p conf) s = None
      <-> List.forallb fst (policy_checks env p conf) = true)
  /\ final (validateHTTPParams env p conf) s = s
  /\ (ForceCmd conf = true -> cmd p = "" ->
      value (validateHTTPParams env p conf) s = Some "cmd missing from request").
Proof.
  unfold value, final. rewrite validate_run. cbn [fst snd].
  split; [reflexivity | split; [ | split; [reflexivity | ] ] ].
  - apply first_failure_none.
  - intros Hforce Hcmd. unfold policy_checks, present.
    rewrite Hforce, Hcmd. reflexivity.
Qed.

(** ** The certificate descriptor (C7, C8, C9) *)

(** C7. The descriptor handed to the signer lists exactly the one remote
    principal of the request, and restricts the source address to the
    bastion address of the request (not to the client address). *)
Theorem C7_descriptor_principal_and_source env r conf s signer raw cc :
  In (ESignPubKey signer raw cc) (run env r conf s) ->
  principals cc = [remoteUser (loadParams r conf)]
  /\ srcAddr cc = bastionIP (loadParams r conf).
Proof.
  intros Hin.
  destruct (sign_event_inv env r conf s signer raw cc Hin)
    as (pk & _ & _ & _ & _ & _ & ->).
  split; reflexivity.
Qed.

(** The spec's example: bastion 10.0.0.5, remote user deploy, client
    203.0.113.9. *)
Lemma C7_deploy_witness :
  In (ESignPubKey "ca" "ssh-ed25519 AAAAC3Nz" Fake.deploy_cc)
     (run Fake.world (Fake.request Fake.deploy) Fake.conf Fake.st0)
  /\ principals Fake.deploy_cc = ["deploy"]
  /\ srcAddr Fake.deploy_cc = "10.0.0.5".
Proof.
  assert (Hin : In (ESignPubKey "ca" "ssh-ed25519 AAAAC3Nz" Fake.deploy_cc)
                   (run Fake.world (Fake.request Fake.deploy) Fake.conf Fake.st0))
    by event_at 14.
  split; [exact Hin | ].
  exact (C7_descriptor_principal_and_source _ _ _ _ _ _ _ Hin).
Defined.

(** C8 (as the code has it). The descriptor handed to the signer is valid
    from the first clock reading of the run, to the second clock reading
    plus the configured lifetime [conf.dur]: the window is the lifetime
    plus the time between the two readings, whatever the request says.
    Valid-to is after valid-from when the lifetime is positive and the
    clock did not step back between the readings; the handler does not
    check the lifetime. *)
Theorem C8_validity_window env r conf s signer raw cc :
  In (ESignPubKey signer raw cc) (run env r conf s) ->
  validAfter cc = clock env (ticks s)
  /\ validBefore cc = Add (clock env (S (ticks s))) (dur conf)
  /\ (validBefore cc - validAfter cc
      = dur conf + (clock env (S (ticks s)) - clock env (ticks s)))%Z
  /\ ((0 < dur conf)%Z ->
      (clock env (ticks s) <= clock env (S (ticks s)))%Z ->
      (validAfter cc < validBefore cc)%Z).
Proof.
  intros Hin.
  destruct (sign_event_inv env r conf s signer raw cc Hin)
    as (pk & _ & _ & _ & _ & _ & ->).
  cbn [validAfter validBefore run_cc]. unfold t_va, t_vb, Add.
  repeat split; lia.
Qed.

(** The example request, with a lifetime of 120 and the clock at 5000. *)
Lemma C8_deploy_witness :
  In (ESignPubKey "ca" "ssh-ed25519 AAAAC3Nz" Fake.deploy_cc)
     (run Fake.world (Fake.request Fake.deploy) Fake.conf Fake.st0)
  /\ (validBefore Fake.deploy_cc - validAfter Fake.deploy_cc = 120)%Z
  /\ (validAfter Fake.deploy_cc < validBefore Fake.deploy_cc)%Z.
Proof.
  assert (Hin : In (ESignPubKey "ca" "ssh-ed25519 AAAAC3Nz" Fake.deploy_cc)
                   (run Fake.world (Fake.request Fake.deploy) Fake.conf Fake.st0))
    by event_at 14.
  split; [exact Hin | ].
  destruct (C8_validity_window _ _ _ _ _ _ _ Hin) as (_ & _ & Hlen & Hlt).
  split; [exact Hlen | apply Hlt; simpl; lia].
Defined.

(** C8 as stated fails: with a configured lifetime of zero and a clock
    that reads the same twice, the certificate is issued with valid-to
    equal to valid-from. *)
Lemma C8_zero_lifetime_counterexample :
  exists cert cc,
    response (run Fake.world (Fake.request Fake.deploy)
                  (Fake.policy false false 0 "ca") Fake.st0) = Some (RBody cert)
    /\ In (ESignPubKey "ca" "ssh-ed25519 AAAAC3Nz" cc)
          (run Fake.world (Fake.request Fake.deploy)
               (Fake.policy false false 0 "ca") Fake.st0)
    /\ ~ (validAfter cc < validBefore cc)%Z.
Proof.
  eexists.
  exists (run_cc Fake.world (Fake.request Fake.deploy)
                 (Fake.policy false false 0 "ca") Fake.st0 "AAAAC3Nz").
  split; [vm_compute; reflexivity | split; [event_at 14 | ] ].
  vm_compute. discriminate.
Qed.

(** C9 (as the code has it). The key-id of the descriptor is the format of
    line 60 filled with the bastion user, the client address [userIP], the
    command, the legacy MD5 fingerprint of the parsed key and the formatted
    valid-to time; it is the key-id of the request line in the log.  The
    address in the key-id is the client's, while the certificate is
    restricted to the bastion's. *)
Theorem C9_keyID_format env r conf s signer raw cc :
  In (ESignPubKey signer raw cc) (run env r conf s) ->
  exists pk,
    ParseAuthorizedKey env raw = Some pk
    /\ keyID cc = keyID_string (bastionUser (loadParams r conf))
                               (userIP (loadParams r conf))
                               (command cc)
                               (Fingerprint env LegacyMD5 pk)
                               (FormatRFC3339 env (validBefore cc))
    /\ srcAddr cc = bastionIP (loadParams r conf)
    /\ In (ELog "Request: |%s|" [keyID cc]) (run env r conf s).
Proof.
  intros Hin.
  destruct (sign_event_inv env r conf s signer raw cc Hin)
    as (pk0 & Hok0 & Hparse0 & Hv0 & _ & -> & ->).
  exists pk0.
  split; [exact Hparse0 | split; [reflexivity | split; [reflexivity | ] ] ].
  exact (request_line_logged env r conf s pk0 Hok0 Hparse0).
Qed.

(** The key-id of the example request. *)
Lemma C9_deploy_witness :
  In (ESignPubKey "ca" "ssh-ed25519 AAAAC3Nz" Fake.deploy_cc)
     (run Fake.world (Fake.request Fake.deploy) Fake.conf Fake.st0)
  /\ exists pk,
       Fake.parse "ssh-ed25519 AAAAC3Nz" = Some pk
       /\ keyID Fake.deploy_cc
          = keyID_string "alice" "203.0.113.9" "" (Fake.fingerprint LegacyMD5 pk)
                         (Fake.format 5120%Z)
       /\ srcAddr Fake.deploy_cc = "10.0.0.5"
       /\ In (ELog "Request: |%s|" [keyID Fake.deploy_cc])
             (run Fake.world (Fake.request Fake.deploy) Fake.conf Fake.st0).
Proof.
  assert (Hin : In (ESignPubKey "ca" "ssh-ed25519 AAAAC3Nz" Fake.deploy_cc)
                   (run Fake.world (Fake.request Fake.deploy) Fake.conf Fake.st0))
    by event_at 14.
  split; [exact Hin | ].
  exact (C9_keyID_format _ _ _ _ _ _ _ Hin).
Defined.

(** C9 as stated fails: for the spec's example request the key-id names
    the client address 203.0.113.9, and the certificate is restricted to
    the bastion address 10.0.0.5. *)
Lemma C9_keyID_address_counterexample :
  In (ESignPubKey "ca" "ssh-ed25519 AAAAC3Nz" Fake.deploy_cc)
     (run Fake.world (Fake.request Fake.deploy) Fake.conf Fake.st0)
  /\ keyID Fake.deploy_cc
     = "user[alice] from[203.0.113.9] command[] sshKey[MD5:AAAAC3Nz] valid to[5120]"
  /\ srcAddr Fake.deploy_cc = "10.0.0.5"
  /\ keyID Fake.deploy_cc
     <> keyID_string "alice" (srcAddr Fake.deploy_cc) "" "MD5:AAAAC3Nz" "5120".
Proof.
  split; [event_at 14 | ].
  split; [reflexivity | split; [reflexivity | ] ].
  vm_compute. discriminate.
Qed.

(** ** Validation and the order of the stages (C1) *)

(** A request with a missing mandatory field does not pass the validator,
    provided [validIP] refuses the empty string. *)
Lemma missing_fails env conf p :
  validIP env "" = false ->
  missing_mandatory conf p = true ->
  first_failure (policy_checks env p conf) <> None.
Proof.
  intros Hempty Hmiss Hnone.
  apply first_failure_none in Hnone.
  unfold policy_checks, present in Hnone. cbn [List.forallb fst] in Hnone.
  unfold missing_mandatory in Hmiss.
  destruct (String.eqb (userIP p) "") eqn:Hip.
  - apply String.eqb_eq in Hip. rewrite Hip, Hempty in Hnone.
    destruct (ForceCmd conf), (String.eqb (cmd p) ""),
      (String.eqb (bastionIP p) ""), (String.eqb (bastionUser p) ""),
      (String.eqb (key p) ""), (String.eqb (remoteUser p) ""),
      (RequireClientIP conf); cbn in Hmiss, Hnone;
      try discriminate Hmiss; try discriminate Hnone;
      rewrite ?andb_false_r in Hnone; discriminate Hnone.
  - destruct (ForceCmd conf), (String.eqb (cmd p) ""),
      (String.eqb (bastionIP p) ""), (String.eqb (bastionUser p) ""),
      (String.eqb (key p) ""), (String.eqb (remoteUser p) ""),
      (RequireClientIP conf); cbn in Hmiss, Hnone;
      try discriminate Hmiss; try discriminate Hnone;
      rewrite ?andb_false_r in Hnone; discriminate Hnone.
Qed.

(** C1 (as the code has it). An authenticated request with a missing
    mandatory field is refused with status 400, and neither the signer nor
    the response writer is called.  The key is parsed, and fingerprinted,
    before the validator runs: when the key parses the refusal is the
    validation failure with the validator's reason, returned after the
    parser and the fingerprinter were called; when the key does not parse
    the refusal is the parse failure, and no fingerprint is computed. *)
Theorem C1_missing_field_rejected env r conf s :
  credentials_ok r conf ->
  validIP env "" = false ->
  missing_mandatory conf (loadParams r conf) = true ->
  called is_sign (run env r conf s) = false
  /\ called is_write (run env r conf s) = false
  /\ match ParseAuthorizedKey env (key (loadParams r conf)) with
     | Some pk =>
         exists reason,
           first_failure (policy_checks env (loadParams r conf) conf) = Some reason
           /\ response (run env r conf s)
              = Some (RError ("Param validation failure: " +:+ reason)
                             StatusBadRequest)
           /\ precedes is_parse is_response (run env r conf s) = true
           /\ precedes is_fingerprint is_response (run env r conf s) = true
     | None =>
         response (run env r conf s)
         = Some (RError "Unable to parse authorized key" StatusBadRequest)
         /\ called is_fingerprint (run env r conf s) = false
     end.
Proof.
  intros Hok0 Hempty Hmiss.
  pose proof (missing_fails env conf _ Hempty Hmiss) as Hfail.
  run_cases env r conf s; try solve [absurd_case];
    rewrite Hparse; (split; [reflexivity | split; [reflexivity | ] ]).
  - split; reflexivity.
  - exists reason. repeat split; first [exact Hv | reflexivity].
  - exists reason. repeat split; first [exact Hv | reflexivity].
Qed.

(** The example request without its remote principal. *)
Lemma C1_no_principal_witness :
  called is_sign
    (run Fake.world (Fake.request Fake.no_principal) Fake.conf Fake.st0) = false
  /\ response
       (run Fake.world (Fake.request Fake.no_principal) Fake.conf Fake.st0)
     = Some (RError "Param validation failure: remoteUser missing from request"
                    StatusBadRequest).
Proof.
  destruct (C1_missing_field_rejected
              Fake.world (Fake.request Fake.no_principal) Fake.conf Fake.st0)
    as (Hsign & _ & Hresp);
    [ reflexivity | reflexivity | vm_compute; reflexivity | ].
  split; [exact Hsign | ].
  vm_compute in Hresp. destruct Hresp as (reason & Hreason & Hresp & _).
  injection Hreason as <-. exact Hresp.
Defined.

(** C1 as stated fails.  A request without its remote principal is refused
    by the validator, but only after its key was parsed and fingerprinted;
    and a request without its key is refused by the key parser, not by the
    validator. *)
Lemma C1_fingerprint_before_validation_counterexample :
  (missing_mandatory Fake.conf
     (loadParams (Fake.request Fake.no_principal) Fake.conf) = true
   /\ response
        (run Fake.world (Fake.request Fake.no_principal) Fake.conf Fake.st0)
      = Some (RError "Param validation failure: remoteUser missing from request"
                     StatusBadRequest)
   /\ precedes is_parse is_response
        (run Fake.world (Fake.request Fake.no_principal) Fake.conf Fake.st0) = true
   /\ precedes is_fingerprint is_response
        (run Fake.world (Fake.request Fake.no_principal) Fake.conf Fake.st0) = true)
  /\ (missing_mandatory Fake.conf
        (loadParams (Fake.request Fake.no_key) Fake.conf) = true
      /\ response (run Fake.world (Fake.request Fake.no_key) Fake.conf Fake.st0)
         = Some (RError "Unable to parse authorized key" StatusBadRequest)).
Proof.
  repeat split; vm_compute; reflexivity.
Qed.

(** ** The fingerprint (C2) *)

(** A fingerprint call in the trace of a run is the one of line 56, on the
    key parsed at line 50. *)
Lemma fingerprint_event_inv env r conf s d k :
  In (EFingerprint d k) (run env r conf s) ->
  d = LegacyMD5 /\ ParseAuthorizedKey env (key (loadParams r conf)) = Some k.
Proof.
  run_cases env r conf s; cbn [In]; intros Hin;
    repeat (destruct Hin as [Hin | Hin]; try discriminate Hin);
    try contradiction;
    injection Hin as <- <-; (split; [reflexivity | exact Hparse]).
Qed.

(** The replay check is called on the legacy MD5 fingerprint of the
    parsed key. *)
Lemma check_event_inv env r conf s fp :
  In (ECheckPubKeyAge fp) (run env r conf s) ->
  exists pk,
    ParseAuthorizedKey env (key (loadParams r conf)) = Some pk
    /\ fp = Fingerprint env LegacyMD5 pk.
Proof.
  run_cases env r conf s; cbn [In]; intros Hin;
    repeat (destruct Hin as [Hin | Hin]; try discriminate Hin);
    try contradiction;
    injection Hin as <-; exists pk; (split; [exact Hparse | reflexivity]).
Qed.

(** C2 (as the code has it). The handler fingerprints the parsed key with
    [ssh.FingerprintLegacyMD5], and with no other digest.  The fingerprint
    is a function of the key field alone: two requests with the same key
    bytes reach the replay check with the same fingerprint, whatever their
    other fields, the configuration, the clock and the store. *)
Theorem C2_fingerprint_legacy_md5_deterministic env :
  (forall r conf s d pk,
     In (EFingerprint d pk) (run env r conf s) ->
     d = LegacyMD5
     /\ ParseAuthorizedKey env (key (loadParams r conf)) = Some pk)
  /\ (forall r1 conf1 s1 r2 conf2 s2 fp1 fp2,
       key (loadParams r1 conf1) = key (loadParams r2 conf2) ->
       In (ECheckPubKeyAge fp1) (run env r1 conf1 s1) ->
       In (ECheckPubKeyAge fp2) (run env r2 conf2 s2) ->
       fp1 = fp2).
Proof.
  split.
  - intros r conf s d pk. apply fingerprint_event_inv.
  - intros r1 conf1 s1 r2 conf2 s2 fp1 fp2 Hkey Hin1 Hin2.
    apply check_event_inv in Hin1 as (pk1 & Hp1 & ->).
    apply check_event_inv in Hin2 as (pk2 & Hp2 & ->).
    rewrite Hkey in Hp1. congruence.
Qed.

(** C2 as stated fails: the digest the handler calls on the example key is
    the legacy MD5 one, and the fingerprint handed to the replay check is
    the one that digest returns. *)
Lemma C2_legacy_digest_counterexample :
  In (EFingerprint LegacyMD5 "AAAAC3Nz")
     (run Fake.world (Fake.request Fake.deploy) Fake.conf Fake.st0)
  /\ modern LegacyMD5 = false
  /\ In (ECheckPubKeyAge (Fingerprint Fake.world LegacyMD5 "AAAAC3Nz"))
        (run Fake.world (Fake.request Fake.deploy) Fake.conf Fake.st0)
  /\ Fingerprint Fake.world LegacyMD5 "AAAAC3Nz"
     <> Fingerprint Fake.world SHA256 "AAAAC3Nz".
Proof.
  split; [event_at 10 | split; [reflexivity | split; [event_at 13 | ] ] ].
  vm_compute. discriminate.
Qed.

(** ** The log (C3, C4) *)

(** The length of a concatenation. *)
Lemma length_append (a b : string) :
  String.length (a +:+ b) = (String.length a + String.length b)%nat.
Proof.
  induction a as [|ch a IH]; [reflexivity | exact (f_equal S IH)].
Qed.

(** The key-id is longer than the client address it embeds, so the two
    are never the same string. *)
Lemma keyID_not_from (user from command fp validTo : string) :
  from <> keyID_string user from command fp validTo.
Proof.
  intros Heq. apply (f_equal String.length) in Heq.
  unfold keyID_string in Heq. rewrite !length_append in Heq.
  cbn [String.length] in Heq. lia.
Qed.

(** C3 (as the code has it). A run logs the request line with the key-id
    exactly once when the request is authenticated and its key parses, and
    not at all otherwise.  The line is written before the validator, the
    replay check and the signer are called and before any response: it is
    written whether or not the request then passes them.  When the signer
    is called, the key-id of the line is the key-id of the descriptor.  No
    other log call of the run has the key-id among its arguments, except
    the line that logs the signer's error, and that one only when the
    error the signer returned is the key-id itself. *)
Theorem C3_request_line_logged_before_validation env r conf s :
  (forall k,
     credentials_ok r conf ->
     ParseAuthorizedKey env (key (loadParams r conf)) = Some k ->
     count is_audit (run env r conf s) = 1
     /\ In (ELog "Request: |%s|" [run_keyID env r conf s k]) (run env r conf s))
  /\ (~ credentials_ok r conf
      \/ ParseAuthorizedKey env (key (loadParams r conf)) = None ->
      count is_audit (run env r conf s) = 0)
  /\ precedes after_logging is_audit (run env r conf s) = false
  /\ (forall signer raw cc,
       In (ESignPubKey signer raw cc) (run env r conf s) ->
       In (ELog "Request: |%s|" [keyID cc]) (run env r conf s))
  /\ (forall k format args,
       credentials_ok r conf ->
       ParseAuthorizedKey env (key (loadParams r conf)) = Some k ->
       In (ELog format args) (run env r conf s) ->
       In (run_keyID env r conf s k) args ->
       format = "Request: |%s|"
       \/ (format = "%v"
           /\ sign env (caSigner conf) (key (loadParams r conf))
                   (run_cc env r conf s k)
              = inr (run_keyID env r conf s k))).
Proof.
  split; [ | split; [ | split; [ | split ] ] ].
  - intros k Hok0 Hparse0.
    split; [ | exact (request_line_logged env r conf s k Hok0 Hparse0) ].
    revert Hok0 Hparse0.
    run_cases env r conf s; intros Hok0 Hparse0;
      first [ reflexivity | absurd_case ].
  - run_cases env r conf s; intros [Hno | Hno];
      first [ reflexivity | contradiction | absurd_case ].
  - run_cases env r conf s; reflexivity.
  - intros signer raw cc Hin.
    destruct (sign_event_inv env r conf s signer raw cc Hin)
      as (pk0 & Hok0 & Hparse0 & _ & _ & _ & ->).
    exact (request_line_logged env r conf s pk0 Hok0 Hparse0).
  - intros k format args Hok0 Hparse0.
    run_cases env r conf s; try solve [absurd_case];
      assert (k = pk) as -> by congruence;
      cbn [In]; intros Hin Harg;
      repeat (destruct Hin as [Hin | Hin]; try discriminate Hin);
      try contradiction;
      injection Hin as <- <-; cbn [In] in Harg;
      first [ left; reflexivity
            | contradiction
            | right; split;
              [ reflexivity | destruct Harg as [<- | []]; exact Hsign ]
            | exfalso; destruct Harg as [Harg | []];
              exact (keyID_not_from _ _ _ _ _ Harg) ].
Qed.

(** C3 as stated fails: the request line is logged, before the signer is
    called, for a request whose signing then fails, and for a request that
    the validator refuses. *)
Lemma C3_logged_without_certificate_counterexample :
  (count is_audit
     (run Fake.world (Fake.request Fake.deploy)
          (Fake.policy false false 120 "") Fake.st0) = 1
   /\ precedes is_audit is_sign
        (run Fake.world (Fake.request Fake.deploy)
             (Fake.policy false false 120 "") Fake.st0) = true
   /\ response
        (run Fake.world (Fake.request Fake.deploy)
             (Fake.policy false false 120 "") Fake.st0)
      = Some (RError "Server error" StatusInternalServerError))
  /\ (count is_audit
        (run Fake.world (Fake.request Fake.no_principal) Fake.conf Fake.st0) = 1
      /\ response
           (run Fake.world (Fake.request Fake.no_principal) Fake.conf Fake.st0)
         = Some (RError "Param validation failure: remoteUser missing from request"
                        StatusBadRequest)).
Proof.
  repeat split; vm_compute; reflexivity.
Qed.

(** C4, the code at three inputs.  (1) The replay check returns
    [expired = false] together with an error: the error is dropped, no
    line is logged for it, the signer is called and the certificate is
    returned.  (2) The key is too old: the request is refused with status
    422 and no line is logged for the refusal.  (3) The client address is
    required and is invalid: the refusal is logged twice, once by the
    validator and once by the handler. *)
Theorem C4_failures_not_logged_once :
  (value (checkPubKeyAge Fake.flaky Fake.conf "MD5:AAAAC3Nz") Fake.st0
     = (false, Some "database not open")
   /\ count is_failure_log
        (run Fake.flaky (Fake.request Fake.deploy) Fake.conf Fake.st0) = 0
   /\ called is_sign
        (run Fake.flaky (Fake.request Fake.deploy) Fake.conf Fake.st0) = true
   /\ called is_write
        (run Fake.flaky (Fake.request Fake.deploy) Fake.conf Fake.st0) = true)
  /\ (response
        (run Fake.world (Fake.request Fake.deploy) Fake.conf (Fake.seen_at 0))
      = Some (RError "Submitted pubkey is too old. Please generate new key."
                     StatusUnprocessableEntity)
      /\ count is_failure_log
           (run Fake.world (Fake.request Fake.deploy) Fake.conf (Fake.seen_at 0))
         = 0)
  /\ (response
        (run Fake.world (Fake.request Fake.no_client)
             (Fake.policy false true 120 "ca") Fake.st0)
      = Some (RError "Param validation failure: invalid userIP" StatusBadRequest)
      /\ count is_failure_log
           (run Fake.world (Fake.request Fake.no_client)
                (Fake.policy false true 120 "ca") Fake.st0)
         = 2).
Proof.
  repeat split; vm_compute; reflexivity.
Qed.

(** ** The replay check (C5) *)

(** The guard expires a fingerprint that was seen before and whose age is
    over the threshold, and leaves the store as it is. *)
Lemma observeAge_expired conf fp now (seen : gmap string Time) first_seen :
  seen !! fp = Some first_seen ->
  (maxAge conf < now - first_seen)%Z ->
  observeAge conf fp now seen = ((true, None), seen).
Proof.
  intros Hseen Hage. unfold observeAge, observe. rewrite Hseen.
  apply Z.ltb_lt in Hage. rewrite Hage. reflexivity.
Qed.

(** It expires nothing else: not a fingerprint it sees for the first time,
    and not one whose age is within the threshold. *)
Lemma observeAge_expired_iff conf fp now (seen : gmap string Time) :
  (observeAge conf fp now seen).1.1 = true
  <-> exists first_seen,
        seen !! fp = Some first_seen /\ (maxAge conf < now - first_seen)%Z.
Proof.
  unfold observeAge, observe.
  destruct (seen !! fp) as [t0|] eqn:Hseen; cbn.
  - destruct (Z.ltb_spec (maxAge conf) (now - t0)) as [Hlt | Hge]; cbn.
    + split; [intros _; exists t0; auto | reflexivity].
    + split; [discriminate | ].
      intros (t1 & Ht1 & Hlt). injection Ht1 as <-. lia.
  - split; [discriminate | intros (t1 & Ht1 & _); discriminate Ht1].
Qed.

(** C5. With the spec's Replay Guard as the replay check: for a request
    whose key parses and whose fingerprint was first seen longer ago than
    the configured threshold, the signer is not called and no certificate
    is written; and when the request reaches the replay check (it is
    authenticated and passes the validator) it is answered with the
    key-too-old error, status 422, the store being left as it was. *)
Theorem C5_expired_key_rejected env r conf s k first_seen :
  checkAge env = observeAge ->
  ParseAuthorizedKey env (key (loadParams r conf)) = Some k ->
  db s !! Fingerprint env LegacyMD5 k = Some first_seen ->
  (maxAge conf < clock env (S (S (ticks s))) - first_seen)%Z ->
  called is_sign (run env r conf s) = false
  /\ called is_write (run env r conf s) = false
  /\ (credentials_ok r conf ->
      first_failure (policy_checks env (loadParams r conf) conf) = None ->
      response (run env r conf s)
      = Some (RError "Submitted pubkey is too old. Please generate new key."
                     StatusUnprocessableEntity)
      /\ db (final (webHandler env r conf) s) = db s).
Proof.
  intros Hguard Hparse0 Hseen Hage.
  pose proof (observeAge_expired conf _ _ _ _ Hseen Hage) as Hexp.
  rewrite <- Hguard in Hexp.
  run_cases env r conf s;
    try (assert (k = pk) as -> by congruence;
         unfold t_check in Hcheck; rewrite Hexp in Hcheck);
    try discriminate Hcheck;
    (split; [reflexivity | split; [reflexivity | ] ]);
    intros Hok0 Hv0; try solve [absurd_case].
  injection Hcheck as <- <-. split; reflexivity.
Qed.

(** The spec's third example: the key of the example request was first
    seen at time 0, the threshold is 1000 and the clock reads 5000. *)
Lemma C5_expired_witness :
  called is_sign
    (run Fake.world (Fake.request Fake.deploy) Fake.conf (Fake.seen_at 0)) = false
  /\ response
       (run Fake.world (Fake.request Fake.deploy) Fake.conf (Fake.seen_at 0))
     = Some (RError "Submitted pubkey is too old. Please generate new key."
                    StatusUnprocessableEntity).
Proof.
  destruct (C5_expired_key_rejected
              Fake.world (Fake.request Fake.deploy) Fake.conf (Fake.seen_at 0)
              "AAAAC3Nz" 0%Z)
    as (Hsign & _ & Hresp);
    [ reflexivity | vm_compute; reflexivity | vm_compute; reflexivity
    | vm_compute; reflexivity | ].
  split; [exact Hsign | ].
  apply Hresp; [reflexivity | vm_compute; reflexivity].
Defined.

(** * Further properties of [webHandler] and [validateHTTPParams] *)

(** ** The response *)

(** X1. Every run answers the request exactly once, and the answer is the
    last thing the handler does: one [http.Error] or one [w.Write], never
    both, never none, and nothing after it. *)
Theorem X1_one_response_last env r conf s :
  count is_response (run env r conf s) = 1
  /\ ends_with_response (run env r conf s) = true.
Proof.
  run_cases env r conf s; split; reflexivity.
Qed.

(** X2. A certificate is written exactly when the request is authenticated,
    its key parses, it passes the validator, the replay check does not
    expire the key and the signer succeeds; the body written is what the
    signer returned for the configured CA signer, the key bytes of the
    request and the descriptor of lines 83 to 92. *)
Theorem X2_issued_iff env r conf s body :
  response (run env r conf s) = Some (RBody body)
  <-> credentials_ok r conf
      /\ exists k,
           ParseAuthorizedKey env (key (loadParams r conf)) = Some k
           /\ first_failure (policy_checks env (loadParams r conf) conf) = None
           /\ (checkAge env conf (Fingerprint env LegacyMD5 k)
                        (clock env (S (S (ticks s)))) (db s)).1.1 = false
           /\ sign env (caSigner conf) (key (loadParams r conf))
                   (run_cc env r conf s k) = inl body.
Proof.
  split.
  - run_cases env r conf s; cbn [response]; intros Hresp;
      try discriminate Hresp.
    injection Hresp as <-. split; [exact Hok | ].
    exists pk. unfold t_check in Hcheck. rewrite Hcheck. auto.
  - intros (Hok0 & k & Hparse0 & Hv0 & Hcheck0 & Hsign0).
    run_cases env r conf s; try solve [absurd_case];
      assert (k = pk) as -> by congruence; unfold t_check in Hcheck.
    + rewrite Hcheck in Hcheck0. discriminate Hcheck0.
    + cbn [response]. congruence.
Qed.

(** X3. A failure of the signer is not shown to the caller: whatever the
    error says, the answer is "Server error" with status 500, nothing is
    written, and the error goes to the log. *)
Theorem X3_signing_failure_is_opaque env r conf s signer raw cc e :
  In (ESignPubKey signer raw cc) (run env r conf s) ->
  sign env signer raw cc = inr e ->
  response (run env r conf s)
    = Some (RError "Server error" StatusInternalServerError)
  /\ In (ELog "%v" [e]) (run env r conf s)
  /\ called is_write (run env r conf s) = false.
Proof.
  run_cases env r conf s; cbn [In]; intros Hin;
    repeat (destruct Hin as [Hin | Hin]; try discriminate Hin);
    try contradiction;
    injection Hin as <- <- <-; intros Hfail.
  - pose proof (eq_trans (eq_sym Hfail) Hsign) as Heq. injection Heq as ->.
    split; [reflexivity | split; [auto 20 | reflexivity] ].
  - pose proof (eq_trans (eq_sym Hfail) Hsign) as Heq. discriminate Heq.
Qed.

(** The example request, with a configuration that has no signing key. *)
Lemma X3_no_signing_key_witness :
  response (run Fake.world (Fake.request Fake.deploy)
                (Fake.policy false false 120 "") Fake.st0)
    = Some (RError "Server error" StatusInternalServerError)
  /\ In (ELog "%v" ["no signing key"])
        (run Fake.world (Fake.request Fake.deploy)
             (Fake.policy false false 120 "") Fake.st0)
  /\ called is_write
       (run Fake.world (Fake.request Fake.deploy)
            (Fake.policy false false 120 "") Fake.st0) = false.
Proof.
  apply (X3_signing_failure_is_opaque
           Fake.world (Fake.request Fake.deploy)
           (Fake.policy false false 120 "") Fake.st0
           "" "ssh-ed25519 AAAAC3Nz" Fake.deploy_cc "no signing key").
  - event_at 14.
  - reflexivity.
Defined.

(** ** The replay check and the replay store *)

(** X4. The replay check is called exactly when the request is
    authenticated, its key parses and the validator passes it, and then
    once; a run that does not call it leaves the replay store as it was:
    a request refused for its credentials, its key or its fields records
    nothing. *)
Theorem X4_replay_check_after_validation env r conf s :
  (called is_check (run env r conf s) = true
   <-> credentials_ok r conf
       /\ (exists k, ParseAuthorizedKey env (key (loadParams r conf)) = Some k)
       /\ first_failure (policy_checks env (loadParams r conf) conf) = None)
  /\ count is_check (run env r conf s) <= 1
  /\ (called is_check (run env r conf s) = false ->
      db (final (webHandler env r conf) s) = db s).
Proof.
  run_cases env r conf s;
    (split; [ split;
              [ intros Hcalled; first [ discriminate Hcalled | eauto ]
              | intros (Hok0 & (k & Hparse0) & Hv0);
                first [ reflexivity | absurd_case ] ]
            | split; [ cbn; lia | ] ]);
    intros Hcalled; first [ reflexivity | discriminate Hcalled ].
Qed.

(** ** The order of the stages *)

(** X5. The calls of a run follow the pipeline and never step back: the
    credential check, then the request fields, the clock, the key parser,
    the fingerprinter, the validator, the replay check, the signer, and
    the response; a run that stops early has called none of the stages
    after the one it stopped at. *)
Theorem X5_stages_in_order env r conf s :
  forward (stages (run env r conf s)) = true.
Proof.
  run_cases env r conf s; reflexivity.
Qed.

(** ** The descriptor and the call of the signer *)

(** X6. The signer is called at most once, with the CA signer of the
    configuration and the key bytes of the request as they were submitted;
    the descriptor is a user certificate whose forced command is the
    command of the request and whose extensions are the configured ones. *)
Theorem X6_signer_arguments env r conf s signer raw cc :
  In (ESignPubKey signer raw cc) (run env r conf s) ->
  signer = caSigner conf
  /\ raw = key (loadParams r conf)
  /\ certType cc = UserCert
  /\ command cc = cmd (loadParams r conf)
  /\ extensions cc = exts conf
  /\ count is_sign (run env r conf s) = 1.
Proof.
  intros Hin.
  destruct (sign_event_inv env r conf s signer raw cc Hin)
    as (k & Hok0 & Hparse0 & Hv0 & -> & -> & ->).
  repeat (split; [reflexivity | ]).
  revert Hin.
  run_cases env r conf s; cbn [In]; intros Hin;
    repeat (destruct Hin as [Hin | Hin]; try discriminate Hin);
    try contradiction; reflexivity.
Qed.

Lemma X6_deploy_witness :
  In (ESignPubKey "ca" "ssh-ed25519 AAAAC3Nz" Fake.deploy_cc)
     (run Fake.world (Fake.request Fake.deploy) Fake.conf Fake.st0)
  /\ certType Fake.deploy_cc = UserCert
  /\ command Fake.deploy_cc = ""
  /\ count is_sign
       (run Fake.world (Fake.request Fake.deploy) Fake.conf Fake.st0) = 1.
Proof.
  assert (Hin : In (ESignPubKey "ca" "ssh-ed25519 AAAAC3Nz" Fake.deploy_cc)
                   (run Fake.world (Fake.request Fake.deploy) Fake.conf Fake.st0))
    by event_at 14.
  split; [exact Hin | ].
  destruct (X6_signer_arguments _ _ _ _ _ _ _ Hin)
    as (_ & _ & Htype & Hcmd & _ & Hcount).
  split; [exact Htype | split; [exact Hcmd | exact Hcount] ].
Defined.

(** ** Refusals *)

(** The reason the validator returns is the reason of one of its
    checks. *)
Lemma first_failure_in (checks : list (bool * error)) (why : error) :
  first_failure checks = Some why -> In why (List.map snd checks).
Proof.
  induction checks as [|[[] reason] rest IH]; cbn; intros Hwhy.
  - discriminate Hwhy.
  - right. exact (IH Hwhy).
  - left. congruence.
Qed.

(** X7. Any failure of the validator, not only a missing field, is
    answered with status 400 and "Param validation failure: " followed by
    the validator's reason.  The handler hands that same string to
    [log.Printf] as the format, with no arguments (line 70).  The reason is
    one of six constants or the configured header name followed by
    " missing from request": no field of the request is part of it.  The
    replay check and the signer are not called and the replay store is
    left as it was. *)
Theorem X7_validation_failure_surfaced env r conf s k why :
  credentials_ok r conf ->
  ParseAuthorizedKey env (key (loadParams r conf)) = Some k ->
  first_failure (policy_checks env (loadParams r conf) conf) = Some why ->
  response (run env r conf s)
    = Some (RError ("Param validation failure: " +:+ why) StatusBadRequest)
  /\ In (ELog ("Param validation failure: " +:+ why) []) (run env r conf s)
  /\ In why [ "cmd missing from request"; "bastionIP is invalid";
              UserHeader conf +:+ " missing from request";
              "username is invalid"; "key missing from request";
              "remoteUser missing from request"; "invalid userIP" ]
  /\ called is_check (run env r conf s) = false
  /\ called is_sign (run env r conf s) = false
  /\ db (final (webHandler env r conf) s) = db s.
Proof.
  intros Hok0 Hparse0 Hv0.
  pose proof (first_failure_in _ _ Hv0) as Hwhy.
  revert Hwhy.
  run_cases env r conf s; try solve [absurd_case];
    assert (why = reason) as -> by congruence; intros Hwhy;
    (split; [reflexivity | split; [cbn [In]; auto 20 | split; [exact Hwhy | ] ] ]);
    repeat split; reflexivity.
Qed.

(** The example request with the bastion address 10.0.0, which is no
    address. *)
Lemma X7_bad_bastion_witness :
  response (run Fake.world (Fake.request Fake.bad_bastion) Fake.conf Fake.st0)
    = Some (RError "Param validation failure: bastionIP is invalid"
                   StatusBadRequest)
  /\ In (ELog "Param validation failure: bastionIP is invalid" [])
        (run Fake.world (Fake.request Fake.bad_bastion) Fake.conf Fake.st0)
  /\ called is_sign
       (run Fake.world (Fake.request Fake.bad_bastion) Fake.conf Fake.st0) = false.
Proof.
  destruct (X7_validation_failure_surfaced
              Fake.world (Fake.request Fake.bad_bastion) Fake.conf Fake.st0
              "AAAAC3Nz" "bastionIP is invalid")
    as (Hresp & Hlog & _ & _ & Hsign & _);
    [ reflexivity | vm_compute; reflexivity | vm_compute; reflexivity | ].
  split; [exact Hresp | split; [exact Hlog | exact Hsign] ].
Defined.

(** X8. An authenticated request whose key does not parse is answered with
    status 400 "Unable to parse authorized key", whatever its other fields;
    the key is written to the log as it was submitted, and neither the
    fingerprinter, the validator, the replay check nor the signer is
    called. *)
Theorem X8_unparsable_key_refused env r conf s :
  credentials_ok r conf ->
  ParseAuthorizedKey env (key (loadParams r conf)) = None ->
  response (run env r conf s)
    = Some (RError "Unable to parse authorized key" StatusBadRequest)
  /\ In (ELog "Unable to parse authorized key |%s|" [key (loadParams r conf)])
        (run env r conf s)
  /\ called is_fingerprint (run env r conf s) = false
  /\ called is_validate (run env r conf s) = false
  /\ called is_check (run env r conf s) = false
  /\ called is_sign (run env r conf s) = false.
Proof.
  intros Hok0 Hparse0.
  run_cases env r conf s; try solve [absurd_case].
  split; [reflexivity | split; [cbn [In]; auto 20 | ] ].
  repeat split; reflexivity.
Qed.

Lemma X8_bad_key_witness :
  response (run Fake.world (Fake.request Fake.bad_key) Fake.conf Fake.st0)
    = Some (RError "Unable to parse authorized key" StatusBadRequest)
  /\ In (ELog "Unable to parse authorized key |%s|" ["not a key"])
        (run Fake.world (Fake.request Fake.bad_key) Fake.conf Fake.st0).
Proof.
  destruct (X8_unparsable_key_refused
              Fake.world (Fake.request Fake.bad_key) Fake.conf Fake.st0)
    as (Hresp & Hlog & _);
    [ reflexivity | vm_compute; reflexivity | ].
  split; [exact Hresp | exact Hlog].
Defined.

(** X9. The two refusals of the credential check differ: without
    credentials the answer is "Authorization Failure" and nothing is
    logged; with credentials that do not match on both the user and the
    password the answer is "Unauthorized" and one line is logged, which
    carries neither the user nor the password that was supplied. *)
Theorem X9_credential_refusals env r conf s :
  ~ credentials_ok r conf ->
  run env r conf s
  = match basicAuth r with
    | None =>
        [EBasicAuth; EHttpError "Authorization Failure" StatusUnauthorized]
    | Some _ =>
        [EBasicAuth; ELog "Invalid proxy credentials" [];
         EHttpError "Unauthorized" StatusUnauthorized]
    end.
Proof.
  intros Hno.
  destruct (run_outcome env r conf s); try contradiction;
    rewrite H; reflexivity.
Qed.

(** The right proxy user with a wrong password. *)
Lemma X9_wrong_password_witness :
  run Fake.world (Fake.wrong_password Fake.deploy) Fake.conf Fake.st0
  = [EBasicAuth; ELog "Invalid proxy credentials" [];
     EHttpError "Unauthorized" StatusUnauthorized].
Proof.
  apply (X9_credential_refusals
           Fake.world (Fake.wrong_password Fake.deploy) Fake.conf Fake.st0).
  unfold credentials_ok. simpl. intros Heq. discriminate Heq.
Defined.

(** ** More on [validateHTTPParams] *)

(** The verdict of the validator, in any state. *)
Lemma validate_value env p conf s :
  value (validateHTTPParams env p conf) s
  = first_failure (policy_checks env p conf).
Proof. unfold value. rewrite validate_run. reflexivity. Qed.

(** X10. The validator writes to the log in one case only: the checks (a)
    to (e) pass, a client address is required, and the client address is
    not valid.  It then logs that address as it was submitted, once; in
    every other case, failing or passing, it logs nothing. *)
Theorem X10_validator_log env p conf s :
  events (validateHTTPParams env p conf) s
  = EValidate p ::
    (if List.forallb fst (List.firstn 6 (policy_checks env p conf))
        && RequireClientIP conf && negb (validIP env (userIP p))
     then [ELog "invalid userIP: |%s|" [userIP p]]
     else []).
Proof.
  unfold events, validateHTTPParams, policy_checks, present,
    bind, emit, ret, log_Printf.
  cbn [List.firstn List.forallb fst].
  validator_cases env p conf ltac:(reflexivity).
Qed.

(** X11. What the policy does not ask for is not looked at.  Without the
    forced-command policy the verdict of the validator does not depend on
    the command; without the client-address policy it does not depend on
    the client address, which may then be any string. *)
Theorem X11_unchecked_fields env p conf s :
  (ForceCmd conf = false ->
   forall c,
     value (validateHTTPParams env (with_cmd c p) conf) s
     = value (validateHTTPParams env p conf) s)
  /\ (RequireClientIP conf = false ->
      forall u,
        value (validateHTTPParams env (with_userIP u p) conf) s
        = value (validateHTTPParams env p conf) s).
Proof.
  split; intros Hoff x; rewrite !validate_value;
    unfold policy_checks, with_cmd, with_userIP;
    cbn [bastionIP bastionUser cmd key remoteUser userIP];
    rewrite Hoff; reflexivity.
Qed.

(** The example request passes with the client address "anywhere". *)
Lemma X11_any_client_address_witness :
  value (validateHTTPParams Fake.world
           (with_userIP "anywhere" Fake.deploy) Fake.conf) Fake.st0 = None.
Proof.
  destruct (X11_unchecked_fields Fake.world Fake.deploy Fake.conf Fake.st0)
    as [_ Hip].
  rewrite (Hip eq_refl "anywhere"). vm_compute. reflexivity.
Defined.

(** X12. The bound on the bastion user is 32 bytes, inclusive.  For a
    request that passes the checks (a) and (b) and names a bastion user,
    the validator answers "username is invalid" exactly when the name is
    longer than 32 bytes or does not match the configured pattern: a name
    of 33 bytes is refused whatever the pattern says. *)
Theorem X12_username_bound env p conf s :
  implb (ForceCmd conf) (present (cmd p)) = true ->
  present (bastionIP p) && validIP env (bastionIP p) = true ->
  bastionUser p <> "" ->
  value (validateHTTPParams env p conf) s = Some "username is invalid"
  <-> (32 < String.length (bastionUser p))%nat
      \/ userRegex conf (bastionUser p) = false.
Proof.
  intros Ha Hb Huser. rewrite validate_value.
  unfold policy_checks. rewrite Ha, Hb. cbn [first_failure].
  apply String.eqb_neq in Huser. unfold present at 1. rewrite Huser.
  cbn [negb first_failure].
  destruct (Nat.leb_spec (String.length (bastionUser p)) 32) as [Hle | Hgt];
    destruct (userRegex conf (bastionUser p)); cbn [andb first_failure].
  - destruct (present (key p)), (present (remoteUser p)),
      (implb (RequireClientIP conf) (validIP env (userIP p)));
      cbn [first_failure]; split;
      first [ discriminate | intros [Hlt | Hre]; [ lia | discriminate Hre ] ].
  - split; [intros _; right; reflexivity | reflexivity].
  - split; [intros _; left; exact Hgt | reflexivity].
  - split; [intros _; left; exact Hgt | reflexivity].
Qed.

(** A lower-case name of 33 letters. *)
Lemma X12_long_user_witness :
  value (validateHTTPParams Fake.world Fake.long_user Fake.conf) Fake.st0
  = Some "username is invalid".
Proof.
  apply (X12_username_bound Fake.world Fake.long_user Fake.conf Fake.st0).
  - reflexivity.
  - vm_compute. reflexivity.
  - discriminate.
  - left. vm_compute. lia.
Defined.

(** ** What the handler reads of the request *)

(** X13. The handler reads the request through the credentials, the five
    form fields and the one configured header only: two requests that
    agree on these are handled alike, whatever else their forms and
    headers carry.  In particular a form field named bastionUser is not
    read: the bastion user is the header's. *)
Theorem X13_only_named_fields_matter env r1 r2 conf :
  basicAuth r1 = basicAuth r2 ->
  loadParams r1 conf = loadParams r2 conf ->
  webHandler env r1 conf = webHandler env r2 conf.
Proof.
  intros Hauth Hfields. unfold loadParams in Hfields.
  injection Hfields as Hbip Hbu Hcmd Hkey Hru Huip.
  unfold webHandler, BasicAuth, PostFormValue, Header_Get.
  rewrite Hauth, Hbip, Hbu, Hcmd, Hkey, Hru, Huip. reflexivity.
Qed.

(** The example request with a form field bastionUser = root and one more
    header. *)
Lemma X13_noisy_witness :
  run Fake.world (Fake.noisy Fake.deploy) Fake.conf Fake.st0
  = run Fake.world (Fake.request Fake.deploy) Fake.conf Fake.st0.
Proof.
  unfold run.
  rewrite (X13_only_named_fields_matter
             Fake.world (Fake.noisy Fake.deploy) (Fake.request Fake.deploy)
             Fake.conf);
    [ reflexivity | reflexivity | vm_compute; reflexivity ].
Defined.

(** ** The key-id format *)

Lemma append_assoc (a b c : string) :
  (a +:+ b) +:+ c = a +:+ (b +:+ c).
Proof.
  induction a as [|ch a IH]; [reflexivity | exact (f_equal (String ch) IH)].
Qed.

(** X14. The key-id format of line 60 does not delimit its fields: a
    client address that ends in "] command[x" with the command c gives the
    same key-id as the address without that ending with the command
    "x] command[c".  The key-id alone does not tell the two requests
    apart. *)
Theorem X14_keyID_fields_not_delimited (user from x c fp validTo : string) :
  keyID_string user (from +:+ "] command[" +:+ x) c fp validTo
  = keyID_string user from (x +:+ "] command[" +:+ c) fp validTo.
Proof.
  unfold keyID_string. rewrite !append_assoc. reflexivity.
Qed.
